(** * The rustdoc sidebar index of [wasmtime_environ::isa]

    [api/wasmtime_environ/isa/sidebar-items.js] is one expression statement:
    a call of the global [initSidebarItems] on an object literal.  The file is
    embedded as the syntax tree of that statement, written in a small fragment
    of JavaScript (string, array and object literals, identifiers, calls,
    [var] declarations), together with an evaluator for the fragment that
    records the calls made to host functions. *)

From Stdlib Require Import String Ascii List Bool Sorted.
Import ListNotations.
Open Scope string_scope.
Set Warnings "-register-all".

Module JS.

(** ** Syntax *)

Inductive expr : Type :=
| EStr (s : string)
| EArr (elems : list expr)
| EObj (props : list (string * expr))
| EId (x : string)
| ECall (callee : string) (args : list expr).

Inductive stmt : Type :=
| SExpr (e : expr)
| SVar (x : string) (init : expr).

Definition script : Type := list stmt.

(** ** Values, events and errors *)

(** An object is the list of its own properties in creation order; the
    fragment only builds objects whose keys are neither array indices nor
    ["__proto__"], for which JavaScript enumerates in creation order. *)
Inductive value : Type :=
| VUndef
| VStr (s : string)
| VArr (elems : list value)
| VObj (props : list (string * value))
| VFun (host : string).

Inductive event : Type :=
| Call (host : string) (args : list value).

Inductive error : Type :=
| ReferenceError (x : string)
| TypeError (x : string).

Definition env : Type := list (string * value).

Fixpoint lookup {A : Type} (k : string) (l : list (string * A)) : option A :=
  match l with
  | [] => None
  | (k', a) :: l' => if String.eqb k' k then Some a else lookup k l'
  end.

(** [CreateDataProperty]: a repeated key keeps its place and takes the later
    value, a new key goes last. *)
Fixpoint obj_set (k : string) (v : value) (o : list (string * value))
  : list (string * value) :=
  match o with
  | [] => [(k, v)]
  | (k', v') :: o' =>
      if String.eqb k' k then (k, v) :: o' else (k', v') :: obj_set k v o'
  end.

(** ** A trace-and-error monad

    A computation yields the host calls it made, in order, and then either
    the error it threw or its result. *)
Definition M (A : Type) : Type := (list event * (error + A))%type.

Definition ret {A : Type} (a : A) : M A := ([], inr a).

Definition throw {A : Type} (e : error) : M A := ([], inl e).

Definition emit (ev : event) : M unit := ([ev], inr tt).

Definition bind {A B : Type} (m : M A) (f : A -> M B) : M B :=
  match m with
  | (t1, inl e) => (t1, inl e)
  | (t1, inr a) =>
      match f a with
      | (t2, r) => ((t1 ++ t2)%list, r)
      end
  end.

Notation "'let*' x ':=' m 'in' k" := (bind m (fun x => k))
  (at level 61, x pattern, m at next level, right associativity).

(** ** Evaluation *)

(** The callee is resolved first, then the arguments are evaluated from left
    to right, then the callee is checked to be callable.  What a host
    function returns is not known to the script; the fragment has it return
    [undefined]. *)
Fixpoint eval (rho : env) (e : expr) {struct e} : M value :=
  match e with
  | EStr s => ret (VStr s)
  | EArr elems =>
      let* vs :=
        (fix eval_elems (l : list expr) : M (list value) :=
           match l with
           | [] => ret []
           | e1 :: l' =>
               let* v := eval rho e1 in
               let* vs := eval_elems l' in
               ret (v :: vs)
           end) elems in
      ret (VArr vs)
  | EObj props =>
      let* o :=
        (fix eval_props (l : list (string * expr)) (o : list (string * value))
           : M (list (string * value)) :=
           match l with
           | [] => ret o
           | (k, e1) :: l' =>
               let* v := eval rho e1 in
               eval_props l' (obj_set k v o)
           end) props [] in
      ret (VObj o)
  | EId x =>
      match lookup x rho with
      | Some v => ret v
      | None => throw (ReferenceError x)
      end
  | ECall callee args =>
      match lookup callee rho with
      | None => throw (ReferenceError callee)
      | Some f =>
          let* vs :=
            (fix eval_args (l : list expr) : M (list value) :=
               match l with
               | [] => ret []
               | e1 :: l' =>
                   let* v := eval rho e1 in
                   let* vs := eval_args l' in
                   ret (v :: vs)
               end) args in
          match f with
          | VFun host => let* _ := emit (Call host vs) in ret VUndef
          | _ => throw (TypeError callee)
          end
      end
  end.

Definition eval_list (rho : env) : list expr -> M (list value) :=
  fix eval_elems (l : list expr) : M (list value) :=
    match l with
    | [] => ret []
    | e1 :: l' =>
        let* v := eval rho e1 in
        let* vs := eval_elems l' in
        ret (v :: vs)
    end.

Definition eval_props (rho : env)
  : list (string * expr) -> list (string * value) -> M (list (string * value)) :=
  fix eval_props (l : list (string * expr)) (o : list (string * value))
    : M (list (string * value)) :=
    match l with
    | [] => ret o
    | (k, e1) :: l' =>
        let* v := eval rho e1 in
        eval_props l' (obj_set k v o)
    end.

(** A script runs its statements in order; [var x = e] binds [x] in the
    global environment, an expression statement drops its value. *)
Definition exec (rho : env) (s : stmt) : M env :=
  match s with
  | SExpr e => let* _ := eval rho e in ret rho
  | SVar x init => let* v := eval rho init in ret (obj_set x v rho)
  end.

Fixpoint run (rho : env) (p : script) : M env :=
  match p with
  | [] => ret rho
  | s :: p' => let* rho' := exec rho s in run rho' p'
  end.

(** ** Static readings of a script *)

(** [literal e]: [e] is built from string, array and object literals only. *)
Fixpoint literal (e : expr) : bool :=
  match e with
  | EStr _ => true
  | EArr elems => forallb literal elems
  | EObj props => forallb (fun kv => literal (snd kv)) props
  | EId _ => false
  | ECall _ _ => false
  end.

(** The call sites of an expression, as callee and number of arguments. *)
Fixpoint calls (e : expr) : list (string * nat) :=
  match e with
  | EStr _ => []
  | EArr elems => flat_map calls elems
  | EObj props => flat_map (fun kv => calls (snd kv)) props
  | EId _ => []
  | ECall callee args => (callee, length args) :: flat_map calls args
  end.

Definition stmt_calls (s : stmt) : list (string * nat) :=
  match s with
  | SExpr e => calls e
  | SVar _ init => calls init
  end.

Definition script_calls (p : script) : list (string * nat) :=
  flat_map stmt_calls p.

(** The property names of an object literal, in the order they are written. *)
Definition prop_names (e : expr) : list string :=
  match e with
  | EObj props => map fst props
  | _ => []
  end.

Definition event_args (ev : event) : list value :=
  match ev with
  | Call _ args => args
  end.

(** The names a script declares. *)
Definition declared (p : script) : list string :=
  flat_map (fun s => match s with SExpr _ => [] | SVar x _ => [x] end) p.

(** ** Reading a value as a sidebar index *)

Definition entry : Type := (string * string)%type.

Definition index : Type := list (string * list entry).

Definition as_entry (v : value) : option entry :=
  match v with
  | VArr [VStr name; VStr desc] => Some (name, desc)
  | _ => None
  end.

Fixpoint as_entries (vs : list value) : option (list entry) :=
  match vs with
  | [] => Some []
  | v :: vs' =>
      match as_entry v, as_entries vs' with
      | Some e, Some es => Some (e :: es)
      | _, _ => None
      end
  end.

Fixpoint as_categories (props : list (string * value)) : option index :=
  match props with
  | [] => Some []
  | (k, VArr vs) :: props' =>
      match as_entries vs, as_categories props' with
      | Some es, Some i => Some ((k, es) :: i)
      | _, _ => None
      end
  | _ :: _ => None
  end.

Definition as_index (v : value) : option index :=
  match v with
  | VObj props => as_categories props
  | _ => None
  end.

(** [Object.keys] and property read on the objects of the fragment. *)
Definition keys (v : value) : list string :=
  match v with
  | VObj props => map fst props
  | _ => []
  end.

Definition get (v : value) (k : string) : option value :=
  match v with
  | VObj props => lookup k props
  | _ => None
  end.

Definition categories (i : index) : list string := map fst i.

Definition entries (i : index) : list entry := flat_map snd i.

Definition names (i : index) : list string := map fst (entries i).

Definition one_line (s : string) : bool :=
  forallb (fun c => negb (Ascii.eqb c "010" || Ascii.eqb c "013"))
          (list_ascii_of_string s).

Definition described (e : entry) : bool := negb (String.eqb (snd e) "").

End JS.

(** * The file *)

Module Sidebar.
Import JS.

(** The argument of the call, as it is written in the file. *)
Definition sidebar_literal : expr :=
  EObj
    [ ("enum",
       EArr [EArr [EStr "CallConv"; EStr "Calling convention identifiers."]]);
      ("mod",
       EArr [EArr [EStr "fde"; EStr ""]]);
      ("struct",
       EArr [EArr [EStr "TargetFrontendConfig";
                   EStr "This struct provides information that a frontend may need to know about a target to produce Cranelift IR for the target."]]);
      ("trait",
       EArr [EArr [EStr "TargetIsa";
                   EStr "Methods that are specialized to a target ISA. Implies a Display trait that shows the shared flags, as well as any isa-specific flags."]]);
      ("type",
       EArr [EArr [EStr "RegUnit";
                   EStr "Register units are the smallest units of register allocation."]]) ].

(** [sidebar-items.js]: [initSidebarItems({...});] *)
Definition sidebar_items : script :=
  [ SExpr (ECall "initSidebarItems" [sidebar_literal]) ].

(** The object the literal evaluates to (in the empty environment: by
    [literal_eval_any_env] below the environment does not matter), and its
    reading as an index. *)
Definition sidebar_object : value :=
  match snd (eval [] sidebar_literal) with
  | inr v => v
  | inl _ => VUndef
  end.

Definition sidebar_index : index :=
  match as_index sidebar_object with
  | Some i => i
  | None => []
  end.

(** A documentation viewer that defines [initSidebarItems] and nothing else. *)
Definition viewer : env := [("initSidebarItems", VFun "initSidebarItems")].

(** The entries listed under a category. *)
Definition listed (k : string) : list entry :=
  match lookup k sidebar_index with
  | Some es => es
  | None => []
  end.

End Sidebar.

(** * Properties of the evaluator *)

Module JSFacts.
Import JS.

Section ExprInd.

Variable P : expr -> Prop.
Hypothesis HStr : forall s, P (EStr s).
Hypothesis HArr : forall elems, Forall P elems -> P (EArr elems).
Hypothesis HObj :
  forall props, Forall (fun kv => P (snd kv)) props -> P (EObj props).
Hypothesis HId : forall x, P (EId x).
Hypothesis HCall : forall callee args, Forall P args -> P (ECall callee args).

Fixpoint expr_nested_ind (e : expr) : P e :=
  match e with
  | EStr s => HStr s
  | EArr elems =>
      HArr elems
        ((fix all (l : list expr) : Forall P l :=
            match l with
            | [] => Forall_nil P
            | e1 :: l' => Forall_cons e1 (expr_nested_ind e1) (all l')
            end) elems)
  | EObj props =>
      HObj props
        ((fix all (l : list (string * expr))
            : Forall (fun kv => P (snd kv)) l :=
            match l with
            | [] => Forall_nil _
            | kv :: l' =>
                Forall_cons kv (expr_nested_ind (snd kv)) (all l')
            end) props)
  | EId x => HId x
  | ECall callee args =>
      HCall callee args
        ((fix all (l : list expr) : Forall P l :=
            match l with
            | [] => Forall_nil P
            | e1 :: l' => Forall_cons e1 (expr_nested_ind e1) (all l')
            end) args)
  end.

End ExprInd.

Lemma eval_arr rho elems :
  eval rho (EArr elems) = bind (eval_list rho elems) (fun vs => ret (VArr vs)).
Proof. reflexivity. Qed.

Lemma eval_obj rho props :
  eval rho (EObj props) = bind (eval_props rho props []) (fun o => ret (VObj o)).
Proof. reflexivity. Qed.

Lemma eval_list_cons rho e l :
  eval_list rho (e :: l) =
  bind (eval rho e) (fun v => bind (eval_list rho l) (fun vs => ret (v :: vs))).
Proof. reflexivity. Qed.

Lemma eval_props_cons rho k e l o :
  eval_props rho ((k, e) :: l) o =
  bind (eval rho e) (fun v => eval_props rho l (obj_set k v o)).
Proof. reflexivity. Qed.

Lemma lookup_In {A : Type} (k : string) (l : list (string * A)) (a : A) :
  lookup k l = Some a -> In (k, a) l.
Proof.
  induction l as [| [k' a'] l IHl]; simpl; [discriminate |].
  destruct (String.eqb_spec k' k) as [-> | _].
  - intros [= ->]. now left.
  - intros H. right. now apply IHl.
Qed.

(** A literal evaluates the same way in every environment. *)
Lemma literal_eval_any_env (e : expr) :
  literal e = true -> forall rho1 rho2, eval rho1 e = eval rho2 e.
Proof.
  induction e as [s | elems IH | props IH | x | callee args IH]
    using expr_nested_ind; simpl literal; intros Hlit rho1 rho2;
    try discriminate.
  - reflexivity.
  - rewrite !eval_arr. f_equal.
    induction IH as [| e1 l He1 _ IHl]; [reflexivity |].
    simpl in Hlit. apply andb_true_iff in Hlit as [H1 Hl].
    rewrite !eval_list_cons, (He1 H1 rho1 rho2), (IHl Hl). reflexivity.
  - rewrite !eval_obj. f_equal. generalize (@nil (string * value)) as o.
    induction IH as [| [k e1] l He1 _ IHl]; intro o; [reflexivity |].
    simpl in Hlit, He1. apply andb_true_iff in Hlit as [H1 Hl].
    rewrite !eval_props_cons, (He1 H1 rho1 rho2).
    destruct (eval rho2 e1) as [t [err | v]]; simpl; [reflexivity |].
    rewrite (IHl Hl). reflexivity.
Qed.

(** A literal makes no host call and throws nothing. *)
Lemma literal_eval_total (e : expr) :
  literal e = true -> forall rho, exists v, eval rho e = ([], inr v).
Proof.
  induction e as [s | elems IH | props IH | x | callee args IH]
    using expr_nested_ind; simpl literal; intros Hlit rho;
    try discriminate.
  - exists (VStr s). reflexivity.
  - assert (Hl : exists vs, eval_list rho elems = ([], inr vs)).
    { induction IH as [| e1 l He1 _ IHl]; [exists []; reflexivity |].
      simpl in Hlit. apply andb_true_iff in Hlit as [H1 Hl].
      destruct (He1 H1 rho) as [v Hv]. destruct (IHl Hl) as [vs Hvs].
      exists (v :: vs). rewrite eval_list_cons, Hv. simpl. rewrite Hvs.
      reflexivity. }
    destruct Hl as [vs Hvs]. exists (VArr vs). rewrite eval_arr, Hvs.
    reflexivity.
  - assert (Hl : forall o, exists o', eval_props rho props o = ([], inr o')).
    { induction IH as [| [k e1] l He1 _ IHl]; intro o;
        [exists o; reflexivity |].
      simpl in Hlit, He1. apply andb_true_iff in Hlit as [H1 Hl].
      destruct (He1 H1 rho) as [v Hv].
      destruct (IHl Hl (obj_set k v o)) as [o' Ho'].
      exists o'. rewrite eval_props_cons, Hv. simpl. rewrite Ho'.
      reflexivity. }
    destruct (Hl []) as [o' Ho']. exists (VObj o'). rewrite eval_obj, Ho'.
    reflexivity.
Qed.

End JSFacts.

(** * Properties of [sidebar-items.js] *)

Module SidebarSpec.
Import JS JSFacts Sidebar.

Lemma sidebar_literal_literal : literal sidebar_literal = true.
Proof. reflexivity. Qed.

(** The object the call receives, written out. *)
Lemma sidebar_object_eq :
  sidebar_object =
  VObj
    [ ("enum",
       VArr [VArr [VStr "CallConv"; VStr "Calling convention identifiers."]]);
      ("mod",
       VArr [VArr [VStr "fde"; VStr ""]]);
      ("struct",
       VArr [VArr [VStr "TargetFrontendConfig";
                   VStr "This struct provides information that a frontend may need to know about a target to produce Cranelift IR for the target."]]);
      ("trait",
       VArr [VArr [VStr "TargetIsa";
                   VStr "Methods that are specialized to a target ISA. Implies a Display trait that shows the shared flags, as well as any isa-specific flags."]]);
      ("type",
       VArr [VArr [VStr "RegUnit";
                   VStr "Register units are the smallest units of register allocation."]]) ].
Proof. reflexivity. Qed.

Lemma sidebar_literal_eval (rho : env) :
  eval rho sidebar_literal = ([], inr sidebar_object).
Proof.
  rewrite (literal_eval_any_env _ sidebar_literal_literal rho []).
  reflexivity.
Qed.

Lemma sidebar_object_index : as_index sidebar_object = Some sidebar_index.
Proof. reflexivity. Qed.

Lemma sidebar_keys :
  keys sidebar_object = ["enum"; "mod"; "struct"; "trait"; "type"].
Proof. reflexivity. Qed.

(** What running the file does, by what the host has under the name
    [initSidebarItems]. *)
Lemma run_sidebar_items (rho : env) :
  run rho sidebar_items =
  match lookup "initSidebarItems" rho with
  | None => ([], inl (ReferenceError "initSidebarItems"))
  | Some (VFun h) => ([Call h [sidebar_object]], inr rho)
  | Some _ => ([], inl (TypeError "initSidebarItems"))
  end.
Proof.
  unfold sidebar_items, run, exec.
  change (eval rho (ECall "initSidebarItems" [sidebar_literal])) with
    (match lookup "initSidebarItems" rho with
     | None => throw (ReferenceError "initSidebarItems")
     | Some f =>
         bind (eval_list rho [sidebar_literal])
           (fun vs =>
              match f with
              | VFun host => bind (emit (Call host vs)) (fun _ => ret VUndef)
              | _ => throw (TypeError "initSidebarItems")
              end)
     end).
  rewrite eval_list_cons, sidebar_literal_eval.
  destruct (lookup "initSidebarItems" rho) as [[| s | l | o | h] |];
    reflexivity.
Qed.

(** C1.  The file consists of one call, [initSidebarItems(object)], with one
    argument, an object literal that reads as a mapping from category strings
    to arrays of [[name, description]] pairs.  It contains no other call site
    and declares no name; run in a host that provides [initSidebarItems] as a
    function, it makes exactly that one host call and leaves the global
    environment as it found it. *)
Theorem sidebar_items_single_call (rho : env) (h : string) :
  lookup "initSidebarItems" rho = Some (VFun h) ->
  run rho sidebar_items = ([Call h [sidebar_object]], inr rho)
  /\ script_calls sidebar_items = [("initSidebarItems", 1)]
  /\ declared sidebar_items = []
  /\ length sidebar_items = 1
  /\ literal sidebar_literal = true
  /\ prop_names sidebar_literal = keys sidebar_object
  /\ as_index sidebar_object = Some sidebar_index.
Proof.
  intros Hf. rewrite run_sidebar_items, Hf.
  repeat split; reflexivity.
Qed.

Lemma sidebar_items_single_call_witness :
  lookup "initSidebarItems" viewer = Some (VFun "initSidebarItems")
  /\ run viewer sidebar_items =
       ([Call "initSidebarItems" [sidebar_object]], inr viewer).
Proof.
  split; [reflexivity |].
  apply (sidebar_items_single_call viewer "initSidebarItems"). reflexivity.
Defined.

(** C2.  The object passed to [initSidebarItems] has exactly the keys
    "enum", "mod", "struct", "trait" and "type", each once, and the value
    under each of them is an array of [[name, description]] pairs of
    strings. *)
Theorem sidebar_key_set (k : string) :
  (In k (keys sidebar_object) <->
   In k ["enum"; "mod"; "struct"; "trait"; "type"])
  /\ NoDup (keys sidebar_object)
  /\ as_index sidebar_object = Some sidebar_index
  /\ categories sidebar_index = keys sidebar_object
  /\ Forall (fun c => exists vs es,
                 get sidebar_object c = Some (VArr vs)
                 /\ as_entries vs = Some es)
            ["enum"; "mod"; "struct"; "trait"; "type"].
Proof.
  split; [rewrite sidebar_keys; tauto |].
  split.
  { rewrite sidebar_keys.
    repeat (constructor; [simpl; intuition discriminate |]). constructor. }
  repeat split; try reflexivity.
  repeat (constructor; [do 2 eexists; split; reflexivity |]). constructor.
Qed.

(** C3, as the file has it.  The literal lists exactly five entries, each
    with a one-line description; the description is non-empty for four of
    them (CallConv, TargetFrontendConfig, TargetIsa, RegUnit) and empty for
    the fifth, fde. *)
Theorem sidebar_five_entries :
  length (entries sidebar_index) = 5
  /\ forallb (fun e => one_line (snd e)) (entries sidebar_index) = true
  /\ map fst (filter described (entries sidebar_index)) =
       ["CallConv"; "TargetFrontendConfig"; "TargetIsa"; "RegUnit"]
  /\ filter (fun e => negb (described e)) (entries sidebar_index) =
       [("fde", "")].
Proof. repeat split; reflexivity. Qed.

(** C3, as stated, fails: the entries are not four in number, and not every
    one of them has a non-empty description. *)
Lemma sidebar_four_described_entries_fails :
  ~ (length (entries sidebar_index) = 4
     /\ forallb (fun e => one_line (snd e) && described e)
                (entries sidebar_index) = true).
Proof. intros [Hlen _]. discriminate Hlen. Qed.

Lemma sidebar_fde_undescribed :
  In ("fde", "") (entries sidebar_index)
  /\ described ("fde", "") = false
  /\ forallb described (entries sidebar_index) = false.
Proof. repeat split; [right; left |..]; reflexivity. Qed.

(** C4, as the file has it.  Every key of the object passed to
    [initSidebarItems] is one of "enum", "mod", "struct", "trait", "type":
    the categories are enums, modules, structs, traits and type aliases. *)
Theorem sidebar_keys_among_five (k : string) :
  In k (keys sidebar_object) ->
  In k ["enum"; "mod"; "struct"; "trait"; "type"].
Proof. rewrite sidebar_keys. tauto. Qed.

Lemma sidebar_keys_among_five_witness :
  In "mod" (keys sidebar_object)
  /\ In "mod" ["enum"; "mod"; "struct"; "trait"; "type"].
Proof.
  assert (H : In "mod" (keys sidebar_object)) by (right; left; reflexivity).
  split; [exact H | exact (sidebar_keys_among_five "mod" H)].
Defined.

(** C4, as stated, fails: "mod" is a key of the object and is none of "enum",
    "struct", "trait", "type". *)
Lemma sidebar_keys_among_four_fails :
  ~ (forall k, In k (keys sidebar_object) ->
               In k ["enum"; "struct"; "trait"; "type"]).
Proof.
  intros H. specialize (H "mod"). rewrite sidebar_keys in H.
  simpl in H. intuition discriminate.
Qed.

(** C5.  TargetIsa is the name of a pair under "trait", CallConv of one under
    "enum", RegUnit of one under "type" and TargetFrontendConfig of one under
    "struct". *)
Theorem sidebar_lists_isa_symbols :
  In "TargetIsa" (map fst (listed "trait"))
  /\ In "CallConv" (map fst (listed "enum"))
  /\ In "RegUnit" (map fst (listed "type"))
  /\ In "TargetFrontendConfig" (map fst (listed "struct"))
  /\ as_index sidebar_object = Some sidebar_index.
Proof. repeat split; try (left; reflexivity); reflexivity. Qed.

(** C6.  The argument of the call is a constant: it is built from literals
    only, it evaluates to the same result in any two environments, and
    whatever the environment every host call the file makes carries the one
    object [sidebar_object]. *)
Theorem sidebar_argument_constant (rho1 rho2 : env) :
  literal sidebar_literal = true
  /\ eval rho1 sidebar_literal = eval rho2 sidebar_literal
  /\ Forall (fun ev => event_args ev = [sidebar_object])
            (fst (run rho1 sidebar_items))
  /\ Forall (fun ev => event_args ev = [sidebar_object])
            (fst (run rho2 sidebar_items)).
Proof.
  split; [reflexivity |].
  split; [apply literal_eval_any_env; reflexivity |].
  split; rewrite run_sidebar_items.
  - destruct (lookup "initSidebarItems" rho1) as [[| s | l | o | h] |];
      repeat constructor.
  - destruct (lookup "initSidebarItems" rho2) as [[| s | l | o | h] |];
      repeat constructor.
Qed.

(** C7.  Building the object never fails: in every environment the literal
    evaluates, without any host call, to an object that reads as the sidebar
    index, and never to an error. *)
Theorem sidebar_construction_total (rho : env) :
  (exists props,
      eval rho sidebar_literal = ([], inr (VObj props))
      /\ as_index (VObj props) = Some sidebar_index)
  /\ (forall err, snd (eval rho sidebar_literal) <> inl err).
Proof.
  split.
  - rewrite sidebar_literal_eval, sidebar_object_eq.
    eexists. split; reflexivity.
  - intros err.
    destruct (literal_eval_total _ sidebar_literal_literal rho) as [v ->].
    discriminate.
Qed.

(** C8.  Under every key of the object the array has exactly one element,
    and that element is a two-element array of two strings. *)
Theorem sidebar_one_pair_per_key (k : string) (v : value) :
  get sidebar_object k = Some v ->
  exists name desc, v = VArr [VArr [VStr name; VStr desc]].
Proof.
  rewrite sidebar_object_eq. unfold get. intros H.
  apply lookup_In in H. simpl in H.
  repeat (destruct H as [[= _ <-] | H]; [do 2 eexists; reflexivity |]).
  contradiction.
Qed.

Lemma sidebar_one_pair_per_key_witness :
  get sidebar_object "mod" = Some (VArr [VArr [VStr "fde"; VStr ""]])
  /\ exists name desc,
       VArr [VArr [VStr "fde"; VStr ""]] = VArr [VArr [VStr name; VStr desc]].
Proof.
  split; [reflexivity |].
  apply (sidebar_one_pair_per_key "mod"). reflexivity.
Defined.

(** C9.  The one pair under "mod" is [["fde", ""]], with an empty
    description; the other four keys are "enum", "struct", "trait" and
    "type", and every pair listed under them has a non-empty description. *)
Theorem sidebar_mod_undescribed :
  get sidebar_object "mod" = Some (VArr [VArr [VStr "fde"; VStr ""]])
  /\ listed "mod" = [("fde", "")]
  /\ filter (fun k => negb (String.eqb k "mod")) (keys sidebar_object) =
       ["enum"; "struct"; "trait"; "type"]
  /\ Forall (fun k => listed k <> []
                      /\ Forall (fun e => snd e <> "") (listed k))
            ["enum"; "struct"; "trait"; "type"].
Proof.
  repeat split; try reflexivity.
  repeat (constructor;
          [split; [discriminate | repeat constructor; discriminate] |]).
  constructor.
Qed.

(** C10.  No symbol name occurs in two pairs, and the keys are written in
    the literal in the order "enum", "mod", "struct", "trait", "type", which
    is strictly ascending in the lexicographic order of strings. *)
Theorem sidebar_names_distinct_keys_sorted :
  NoDup (names sidebar_index)
  /\ names sidebar_index =
       ["CallConv"; "fde"; "TargetFrontendConfig"; "TargetIsa"; "RegUnit"]
  /\ prop_names sidebar_literal = ["enum"; "mod"; "struct"; "trait"; "type"]
  /\ StronglySorted (fun a b => String.ltb a b = true)
                    (prop_names sidebar_literal)
  /\ keys sidebar_object = prop_names sidebar_literal.
Proof.
  split.
  { change (names sidebar_index) with
      ["CallConv"; "fde"; "TargetFrontendConfig"; "TargetIsa"; "RegUnit"].
    repeat (constructor; [simpl; intuition discriminate |]). constructor. }
  repeat split; try reflexivity.
  change (prop_names sidebar_literal) with
    ["enum"; "mod"; "struct"; "trait"; "type"].
  repeat constructor.
Qed.

End SidebarSpec.

(** * The file in an arbitrary host

    The statement reads one global, [initSidebarItems].  What follows is how
    the file behaves by what the page has under that name when the file is
    loaded. *)

Module SidebarHosts.
Import JS JSFacts Sidebar SidebarSpec.

(** X1.  Loaded in a page that has not defined [initSidebarItems], the file
    throws a ReferenceError naming [initSidebarItems] and makes no host
    call. *)
Theorem sidebar_items_undefined_callee (rho : env) :
  lookup "initSidebarItems" rho = None ->
  run rho sidebar_items = ([], inl (ReferenceError "initSidebarItems")).
Proof. intros H. rewrite run_sidebar_items, H. reflexivity. Qed.

Lemma sidebar_items_undefined_callee_witness :
  lookup "initSidebarItems" ([] : env) = None
  /\ run [] sidebar_items = ([], inl (ReferenceError "initSidebarItems")).
Proof.
  split; [reflexivity |].
  apply (sidebar_items_undefined_callee []). reflexivity.
Defined.

(** X2.  Loaded in a page where [initSidebarItems] is bound to something that
    is not a function, the file throws a TypeError naming [initSidebarItems]
    and makes no host call. *)
Theorem sidebar_items_callee_not_function (rho : env) (v : value) :
  lookup "initSidebarItems" rho = Some v ->
  (forall h, v <> VFun h) ->
  run rho sidebar_items = ([], inl (TypeError "initSidebarItems")).
Proof.
  intros H Hv. rewrite run_sidebar_items, H.
  destruct v as [| s | l | o | h]; try reflexivity.
  now destruct (Hv h).
Qed.

Lemma sidebar_items_callee_not_function_witness :
  lookup "initSidebarItems" [("initSidebarItems", VStr "later")] =
    Some (VStr "later")
  /\ (forall h, VStr "later" <> VFun h)
  /\ run [("initSidebarItems", VStr "later")] sidebar_items =
       ([], inl (TypeError "initSidebarItems")).
Proof.
  assert (Hv : forall h, VStr "later" <> VFun h) by (intros h; discriminate).
  split; [reflexivity |]. split; [exact Hv |].
  exact (sidebar_items_callee_not_function
           [("initSidebarItems", VStr "later")] (VStr "later") eq_refl Hv).
Defined.

(** X3.  The file reads no global but [initSidebarItems]: in two
    environments that agree on that one name it makes the same host calls
    and throws the same errors, whatever else the environments hold. *)
Theorem sidebar_items_reads_one_global (rho1 rho2 : env) :
  lookup "initSidebarItems" rho1 = lookup "initSidebarItems" rho2 ->
  fst (run rho1 sidebar_items) = fst (run rho2 sidebar_items)
  /\ (forall err,
         snd (run rho1 sidebar_items) = inl err <->
         snd (run rho2 sidebar_items) = inl err).
Proof.
  intros H. rewrite !run_sidebar_items, H.
  destruct (lookup "initSidebarItems" rho2) as [[| s | l | o | h] |];
    simpl; split; try reflexivity; intros err; split; intros E;
    solve [exact E | discriminate E].
Qed.

Lemma sidebar_items_reads_one_global_witness :
  lookup "initSidebarItems" viewer =
    lookup "initSidebarItems" (("sidebarCurrent", VObj []) :: viewer)
  /\ fst (run viewer sidebar_items) =
     fst (run (("sidebarCurrent", VObj []) :: viewer) sidebar_items).
Proof.
  split; [reflexivity |].
  apply (sidebar_items_reads_one_global
           viewer (("sidebarCurrent", VObj []) :: viewer)).
  reflexivity.
Defined.


End SidebarHosts.
